(** * Shallow embedding of [bioblend.galaxy.notifications.NotificationClient]

    Source: src/bioblend/galaxy/notifications/__init__.py.

    Each client method is a straight-line request builder: it validates its
    arguments, assembles a JSON payload as a Python dict, and hands a single
    request to the HTTP layer of [Client] ([_get], [_post], [_put]).  We model
    - Python values / JSON as [pyval], dicts as association lists kept in
      insertion order (the order Python 3 dicts preserve);
    - the HTTP layer as a transport function, read by the methods, together
      with the log of requests issued so far;
    - [raise ValueError(...)] as the error branch of a small monad. *)

From Stdlib Require Import String Ascii List ZArith Bool Lia.
Import ListNotations.
Open Scope list_scope.
Open Scope string_scope.
Set Warnings "-register-all".

(** ** Python values *)

(** A naive [datetime.datetime] (the client is only ever given naive ones
    in the tests). *)
Record datetime := mk_datetime {
  dt_year : Z; dt_month : Z; dt_day : Z;
  dt_hour : Z; dt_minute : Z; dt_second : Z; dt_microsecond : Z
}.

Inductive pyval : Type :=
| PNone
| PBool (b : bool)
| PInt (z : Z)
| PStr (s : string)
| PList (l : list pyval)
| PDict (d : list (string * pyval)).

Inductive pyexc : Type :=
| ValueError (msg : string)
| TransportError (status : Z) (body : string).

(** [d[k] = v]: an existing key keeps its position, a new key is appended. *)
Fixpoint dict_set (k : string) (v : pyval) (d : list (string * pyval))
  : list (string * pyval) :=
  match d with
  | [] => [(k, v)]
  | (k', v') :: d' =>
      if String.eqb k k' then (k, v) :: d' else (k', v') :: dict_set k v d'
  end.

(** [d.get(k)] *)
Fixpoint dict_get (k : string) (d : list (string * pyval)) : option pyval :=
  match d with
  | [] => None
  | (k', v') :: d' => if String.eqb k k' then Some v' else dict_get k d'
  end.

(** ** Truthiness ([if x:] and [x or y]) *)

Class Truthy (A : Type) := truthy : A -> bool.

(** [datetime] defines neither [__bool__] nor [__len__]: always true. *)
#[export] Instance truthy_datetime : Truthy datetime := fun _ => true.
#[export] Instance truthy_list {A} : Truthy (list A) :=
  fun l => match l with [] => false | _ => true end.
#[export] Instance truthy_option {A} `{Truthy A} : Truthy (option A) :=
  fun o => match o with None => false | Some x => truthy x end.

(** [xs or []] for an [Optional[List[...]]]. *)
Definition or_empty {A} (o : option (list A)) : list A :=
  if truthy o then match o with Some l => l | None => [] end else [].

(** [==] on [Optional[List[str]]]: [None == None], lists elementwise. *)
Fixpoint list_str_eqb (l1 l2 : list string) : bool :=
  match l1, l2 with
  | [], [] => true
  | x :: l1', y :: l2' => String.eqb x y && list_str_eqb l1' l2'
  | _, _ => false
  end.

Definition opt_list_eqb (o1 o2 : option (list string)) : bool :=
  match o1, o2 with
  | None, None => true
  | Some l1, Some l2 => list_str_eqb l1 l2
  | _, _ => false
  end.

(** ** [str(datetime)] = [isoformat(sep=" ")] *)

Definition digit (d : Z) : ascii := ascii_of_nat (48 + Z.to_nat d).

(** ["%0wd" % n] for [0 <= n < 10^w]. *)
Fixpoint zpad (w : nat) (n : Z) : string :=
  match w with
  | O => ""
  | S w' => zpad w' (n / 10) ++ String (digit (n mod 10)) ""
  end.

Definition str_datetime (t : datetime) : string :=
  zpad 4 (dt_year t) ++ "-" ++ zpad 2 (dt_month t) ++ "-" ++ zpad 2 (dt_day t)
  ++ " " ++ zpad 2 (dt_hour t) ++ ":" ++ zpad 2 (dt_minute t) ++ ":"
  ++ zpad 2 (dt_second t)
  ++ (if Z.eqb (dt_microsecond t) 0 then "" else "." ++ zpad 6 (dt_microsecond t)).

(** ** Requests and the HTTP layer *)

Inductive request : Type :=
| Get (url : string) (params : list (string * pyval))
| Post (url : string) (payload : list (string * pyval))
| Put (url : string) (payload : list (string * pyval)).

(** The transport collaborator: the decoded body, or the error it raises on
    a non-2xx status, which the client does not catch. *)
Definition transport := request -> pyexc + pyval.

(** Reader (transport) + writer (request log) + exceptions. *)
Definition M (A : Type) : Type :=
  transport -> list request -> (pyexc + A) * list request.

Definition ret {A} (a : A) : M A := fun _ log => (inr a, log).
Definition raise {A} (e : pyexc) : M A := fun _ log => (inl e, log).
Definition bind {A B} (m : M A) (k : A -> M B) : M B :=
  fun tr log =>
    match m tr log with
    | (inl e, log') => (inl e, log')
    | (inr a, log') => k a tr log'
    end.

Notation "x <- m ;; k" := (bind m (fun x => k))
  (at level 61, m at next level, right associativity).

(** One HTTP round trip: log the request, return what the transport says. *)
Definition http (r : request) : M pyval :=
  fun tr log => (tr r, (log ++ [r])%list).

(** Run a method from an empty request log. *)
Definition run {A} (m : M A) (tr : transport) := m tr [].

(** ** Argument types *)

Inductive variant : Type := info | urgent | warning.

Definition variant_str (v : variant) : string :=
  match v with info => "info" | urgent => "urgent" | warning => "warning" end.

(** A keyword argument with a non-[None] default: omitted or passed. *)
Inductive arg (A : Type) : Type := Omitted | Passed (a : A).
Arguments Omitted {A}.
Arguments Passed {A} a.

Definition with_default {A} (d : A) (a : arg A) : A :=
  match a with Omitted => d | Passed x => x end.

Definition py_opt_int (o : option Z) : pyval :=
  match o with None => PNone | Some z => PInt z end.

(** ** [Client] helpers *)

Section NotificationClient.

(** [self.url], i.e. [gi.url + "/notifications"]. *)
Variable base_url : string.

(** Modelled from the spec: [Client._make_url] (bioblend/galaxy/client.py,
    not under src/), which appends ["/" + module_id] to the module URL; the
    spec's endpoints are ["/preferences"], ["/broadcast"], ... relative to
    the notifications base path. *)
Definition _make_url (module_id : option string) : string :=
  match module_id with
  | None => base_url
  | Some id => base_url ++ "/" ++ id
  end.

(** Modelled from the spec: [Client._get], [_post], [_put] (not under src/):
    one request, [url] defaulting to the module URL, the decoded body
    returned and transport errors passed through. *)
Definition _get (url : option string) (params : list (string * pyval)) : M pyval :=
  http (Get (match url with Some u => u | None => _make_url None end) params).

Definition _post (payload : list (string * pyval)) (url : option string) : M pyval :=
  http (Post (match url with Some u => u | None => _make_url None end) payload).

Definition _put (url : string) (payload : list (string * pyval)) : M pyval :=
  http (Put url payload).

(** ** The methods of [NotificationClient] *)

Definition get_notification_status (since : datetime) : M pyval :=
  let url := _make_url None ++ "/status?since=" ++ str_datetime since in
  _get (Some url) [].

Definition get_notification_preferences : M pyval :=
  let url := _make_url (Some "preferences") in
  _get (Some url) [].

Definition update_notification_preferences
    (message_notifications push_notifications_message
     new_item_notifications push_notifications_new_items : bool) : M pyval :=
  let url := _make_url (Some "preferences") in
  let payload :=
    [("preferences", PDict
        [("message", PDict [("enabled", PBool message_notifications);
                            ("channels", PDict [("push", PBool push_notifications_message)])]);
         ("new_shared_item", PDict [("enabled", PBool new_item_notifications);
                                    ("channels", PDict [("push", PBool push_notifications_new_items)])])])] in
  _put url payload.

(** [limit: Optional[int] = 20], [offset: Optional[int] = None]. *)
Definition get_user_notifications (limit offset : arg (option Z)) : M pyval :=
  let limit := with_default (Some 20%Z) limit in
  let offset := with_default None offset in
  let params := [("limit", py_opt_int limit); ("offset", py_opt_int offset)] in
  _get None params.

Definition show_notification (notification_id : string) : M pyval :=
  let url := _make_url None ++ "/" ++ notification_id in
  _get (Some url) [].

(** [if t: d[k] = str(t)] for an [Optional[datetime]] argument. *)
Definition set_if_time (k : string) (t : option datetime)
    (d : list (string * pyval)) : list (string * pyval) :=
  if truthy t then
    match t with Some t' => dict_set k (PStr (str_datetime t')) d | None => d end
  else d.

Definition str_list (l : list string) : pyval := PList (map PStr l).

(** Arguments defaulting to [None] are [option]s: omitting one is passing
    [None]. *)
Definition send_notification (source : string) (variant : variant)
    (subject message : string)
    (publication_time expiration_time : option datetime)
    (user_ids group_ids role_ids : option (list string)) : M pyval :=
  (* user_ids == group_ids == role_ids == [] *)
  if opt_list_eqb user_ids group_ids && opt_list_eqb group_ids role_ids
     && opt_list_eqb role_ids (Some [])
  then raise (ValueError "The message has no recipients.")
  else
    let recipients :=
      [("user_ids", str_list (or_empty user_ids));
       ("group_ids", str_list (or_empty group_ids));
       ("role_ids", str_list (or_empty role_ids))] in
    let content :=
      [("source", PStr source); ("variant", PStr (variant_str variant));
       ("category", PStr "message");
       ("content", PDict [("category", PStr "message"); ("subject", PStr subject);
                          ("message", PStr message)])] in
    let content := set_if_time "expiration_time" expiration_time content in
    let content := set_if_time "publication_time" publication_time content in
    let notification := [("recipients", PDict recipients); ("notification", PDict content)] in
    _post notification None.

(** The body of [for k, v in action_links.items(): ...], appending to
    [links]. *)
Fixpoint format_links (items : list (string * string)) (links : list pyval)
  : M (list pyval) :=
  match items with
  | [] => ret links
  | (k, v) :: items' =>
      if negb (String.eqb (substring 0 7 v) "http://")
         && negb (String.eqb (substring 0 8 v) "https://")
      then raise (ValueError ("Link " ++ v ++ " is not a valid URL."))
      else format_links items'
             (links ++ [PDict [("action_name", PStr k); ("link", PStr v)]])%list
  end.

Definition broadcast_notification (source : string) (variant : variant)
    (subject message : string)
    (action_links : option (list (string * string)))
    (publication_time expiration_time : option datetime) : M pyval :=
  let broadcast : list (string * pyval) := [] in
  let content :=
    [("category", PStr "broadcast"); ("subject", PStr subject);
     ("message", PStr message)] in
  content <-
    (if truthy action_links then
       links <- format_links (match action_links with Some d => d | None => [] end) [] ;;
       ret (dict_set "action_links" (PList links) content)
     else ret content) ;;
  let broadcast := dict_set "content" (PDict content) broadcast in
  let broadcast :=
    [("source", PStr source); ("variant", PStr (variant_str variant));
     ("category", PStr "broadcast"); ("content", PDict content)] in
  let broadcast := set_if_time "expiration_time" expiration_time broadcast in
  let broadcast := set_if_time "publication_time" publication_time broadcast in
  let url := _make_url (Some "broadcast") in
  _post broadcast (Some url).

End NotificationClient.

(** ** Callers: the helpers of [TestGalaxyNotifications]

    Source: src/bioblend/_tests/TestGalaxyNotifications.py.  The value of
    [datetime.utcnow() + timedelta(days=1)] is read from the environment, so
    it is an input here ([utc_tomorrow]). *)

(** [str] has no [__bool__]; its truth value is its length. *)
#[export] Instance truthy_string : Truthy string :=
  fun s => match s with EmptyString => false | _ => true end.

(** [s or default] for an [Optional[str]]. *)
Definition py_or_str (o : option string) (default : string) : string :=
  if truthy o then match o with Some s => s | None => default end else default.

Section TestHelpers.

Variable base_url : string.

Definition _send_test_broadcast_notification (utc_tomorrow : datetime)
    (subject message : option string) : M pyval :=
  broadcast_notification base_url "notifications_test" info
    (py_or_str subject "Testing Subject") (py_or_str message "Testing Message")
    (Some [("link_1", "https://link1.de"); ("link_2", "https://link2.de")])
    None (Some utc_tomorrow).

Definition _send_test_notification_to (utc_tomorrow : datetime)
    (user_ids : list string) (subject message : option string) : M pyval :=
  send_notification base_url "notifications_test" info
    (py_or_str subject "Testing Subject") (py_or_str message "Testing Message")
    None (Some utc_tomorrow) (Some user_ids) None None.

End TestHelpers.

(** ** Vocabulary of the specification *)

(** [link.startswith(prefix)] *)
Definition starts_with (prefix s : string) : bool := String.prefix prefix s.

(** An action link the spec accepts: it starts with [http://] or
    [https://]. *)
Definition valid_link (link : string) : bool :=
  starts_with "http://" link || starts_with "https://" link.

(** The spec's [{action_name, link}] object. *)
Definition action_link_obj (kv : string * string) : pyval :=
  PDict [("action_name", PStr (fst kv)); ("link", PStr (snd kv))].

(** A timestamp field present exactly when the argument was supplied. *)
Definition time_field (k : string) (t : option datetime) : list (string * pyval) :=
  match t with None => [] | Some t' => [(k, PStr (str_datetime t'))] end.

(** The recipient list the spec expects: the supplied one, [[]] if omitted. *)
Definition supplied_or_empty {A} (o : option (list A)) : list A :=
  match o with None => [] | Some l => l end.

(** A transport answering every request with [None] (used to instantiate
    the theorems on concrete calls). *)
Definition null_transport : transport := fun _ => inr PNone.

(** A sample naive timestamp, [datetime(2023, 1, 5, 9, 3)]. *)
Definition sample_time : datetime := mk_datetime 2023 1 5 9 3 0 0.

(** ** Lemmas *)

(** Python's [s[:len(p)] == p] is [s.startswith(p)]. *)
Lemma substring_eqb_prefix (p s : string) :
  String.eqb (substring 0 (String.length p) s) p = String.prefix p s.
Proof.
  revert s; induction p as [|a p IH]; intros [|b s]; simpl; try reflexivity.
  destruct (ascii_dec a b) as [<-|Hne].
  - rewrite Ascii.eqb_refl. apply IH.
  - assert (Ascii.eqb b a = false) as -> by (apply Ascii.eqb_neq; congruence).
    reflexivity.
Qed.

(** The check of [broadcast_notification] rejects exactly the links the
    spec calls invalid. *)
Lemma link_check_valid_link (v : string) :
  negb (String.eqb (substring 0 7 v) "http://")
  && negb (String.eqb (substring 0 8 v) "https://") = negb (valid_link v).
Proof.
  unfold valid_link, starts_with.
  rewrite <- (substring_eqb_prefix "http://"), <- (substring_eqb_prefix "https://").
  simpl. now rewrite negb_orb.
Qed.

Lemma format_links_valid (items : list (string * string)) :
  forallb valid_link (map snd items) = true ->
  forall links tr log,
    format_links items links tr log = (inr (links ++ map action_link_obj items)%list, log).
Proof.
  induction items as [|[k v] items IH]; intros Hv links tr log; simpl in *.
  - now rewrite app_nil_r.
  - apply andb_prop in Hv as [Hv Hrest].
    rewrite link_check_valid_link, Hv. simpl.
    rewrite IH by exact Hrest. now rewrite <- app_assoc.
Qed.

Lemma format_links_invalid (items : list (string * string)) :
  (exists k v, In (k, v) items /\ valid_link v = false) ->
  forall links tr log,
    exists v, In v (map snd items) /\ valid_link v = false /\
      format_links items links tr log =
      (inl (ValueError ("Link " ++ v ++ " is not a valid URL.")), log).
Proof.
  induction items as [|[k v] items IH]; intros Hex links tr log; simpl.
  - destruct Hex as (? & ? & [] & _).
  - rewrite link_check_valid_link.
    destruct (valid_link v) eqn:Hv; simpl.
    + destruct IH with (links := (links ++ [action_link_obj (k, v)])%list) (tr := tr) (log := log)
        as (v' & Hin & Hv' & Hrun).
      * destruct Hex as (k' & v' & [Heq | Hin] & Hbad).
        -- inversion Heq; subst. congruence.
        -- eauto.
      * exists v'. split; [now right | split; [exact Hv' | exact Hrun]].
    + exists v. split; [now left | split; [exact Hv | reflexivity]].
Qed.

(** [t or []] on an [Optional[List]] is the list supplied, or [[]]. *)
Lemma or_empty_supplied (o : option (list string)) : or_empty o = supplied_or_empty o.
Proof. destruct o as [[|x l]|]; reflexivity. Qed.

Lemma list_str_eqb_nil_r (l : list string) : list_str_eqb l [] = true <-> l = [].
Proof. destruct l; simpl; split; congruence. Qed.

Lemma list_str_eqb_eq (l1 l2 : list string) : list_str_eqb l1 l2 = true <-> l1 = l2.
Proof.
  revert l2; induction l1 as [|x l1 IH]; intros [|y l2]; simpl;
    try (split; congruence).
  rewrite andb_true_iff, String.eqb_eq, IH. split.
  - now intros [-> ->].
  - intros H; inversion H; auto.
Qed.

Lemma opt_list_eqb_eq (o1 o2 : option (list string)) : opt_list_eqb o1 o2 = true <-> o1 = o2.
Proof.
  destruct o1, o2; simpl; try (split; congruence).
  rewrite list_str_eqb_eq. split; congruence.
Qed.

(** The guard of [send_notification] fires exactly on three explicit [[]]. *)
Lemma no_recipients_guard (u g r : option (list string)) :
  opt_list_eqb u g && opt_list_eqb g r && opt_list_eqb r (Some []) = true <->
  u = Some [] /\ g = Some [] /\ r = Some [].
Proof.
  rewrite !andb_true_iff, !opt_list_eqb_eq. split.
  - intros [[-> ->] ->]. auto.
  - intros (-> & -> & ->). auto.
Qed.

Lemma dict_set_fresh (k : string) (v : pyval) (d : list (string * pyval)) :
  ~ In k (map fst d) -> dict_set k v d = (d ++ [(k, v)])%list.
Proof.
  induction d as [|[k' v'] d IH]; intros Hk; simpl in *; [reflexivity|].
  destruct (String.eqb k k') eqn:E.
  - apply String.eqb_eq in E. exfalso; auto.
  - f_equal. apply IH. auto.
Qed.

Lemma set_if_time_fresh (k : string) (t : option datetime) (d : list (string * pyval)) :
  ~ In k (map fst d) -> set_if_time k t d = (d ++ time_field k t)%list.
Proof.
  intros Hk. destruct t as [t|]; unfold set_if_time; simpl.
  - now apply dict_set_fresh.
  - now rewrite app_nil_r.
Qed.

Section Runs.

Variables (base_url : string) (tr : transport).
Variables (source subject message : string) (var : variant).
Variables (publication_time expiration_time : option datetime).

(** The whole run of [broadcast_notification] once its links validate. *)
Lemma broadcast_notification_run_valid (action_links : option (list (string * string))) :
  forallb valid_link (map snd (supplied_or_empty action_links)) = true ->
  run (broadcast_notification base_url source var subject message action_links
         publication_time expiration_time) tr =
  let content :=
    ([("category", PStr "broadcast"); ("subject", PStr subject);
      ("message", PStr message)] ++
     match supplied_or_empty action_links with
     | [] => []
     | l => [("action_links", PList (map action_link_obj l))]
     end)%list in
  let body :=
    ([("source", PStr source); ("variant", PStr (variant_str var));
      ("category", PStr "broadcast"); ("content", PDict content)]
     ++ time_field "expiration_time" expiration_time
     ++ time_field "publication_time" publication_time)%list in
  (tr (Post (base_url ++ "/broadcast") body), [Post (base_url ++ "/broadcast") body]).
Proof.
  intros Hv. unfold run, broadcast_notification, bind.
  destruct action_links as [[|kv l]|]; simpl in Hv.
  - destruct expiration_time, publication_time; reflexivity.
  - change (truthy (Some (kv :: l))) with true. cbv beta iota.
    rewrite (format_links_valid (kv :: l)) by exact Hv.
    destruct expiration_time, publication_time; reflexivity.
  - destruct expiration_time, publication_time; reflexivity.
Qed.

(** The whole run of [send_notification] when the guard does not fire. *)
Lemma send_notification_run_posts (user_ids group_ids role_ids : option (list string)) :
  ~ (user_ids = Some [] /\ group_ids = Some [] /\ role_ids = Some []) ->
  run (send_notification base_url source var subject message publication_time
         expiration_time user_ids group_ids role_ids) tr =
  let recipients :=
    [("user_ids", PList (map PStr (supplied_or_empty user_ids)));
     ("group_ids", PList (map PStr (supplied_or_empty group_ids)));
     ("role_ids", PList (map PStr (supplied_or_empty role_ids)))] in
  let notification :=
    ([("source", PStr source); ("variant", PStr (variant_str var));
      ("category", PStr "message");
      ("content", PDict [("category", PStr "message"); ("subject", PStr subject);
                         ("message", PStr message)])]
     ++ time_field "expiration_time" expiration_time
     ++ time_field "publication_time" publication_time)%list in
  let body := [("recipients", PDict recipients); ("notification", PDict notification)] in
  (tr (Post base_url body), [Post base_url body]).
Proof.
  intros Hne. unfold run, send_notification.
  destruct (opt_list_eqb user_ids group_ids && opt_list_eqb group_ids role_ids
            && opt_list_eqb role_ids (Some [])) eqn:G.
  - apply no_recipients_guard in G. contradiction.
  - unfold str_list. rewrite !or_empty_supplied.
    destruct expiration_time, publication_time; reflexivity.
Qed.

End Runs.

(** Link validation logs nothing: it raises a [ValueError] or returns the
    formatted links. *)
Lemma format_links_outcome (items : list (string * string)) :
  forall links tr log,
    (exists msg, format_links items links tr log = (inl (ValueError msg), log)) \/
    (exists ls, format_links items links tr log = (inr ls, log)).
Proof.
  induction items as [|[k v] items IH]; intros links tr log; simpl.
  - right. eexists. reflexivity.
  - destruct (_ && _).
    + left. eexists. reflexivity.
    + apply IH.
Qed.

(** Valid leading links are formatted and the loop carries on. *)
Lemma format_links_app_valid (pre rest : list (string * string)) :
  forallb valid_link (map snd pre) = true ->
  forall links tr log,
    format_links (pre ++ rest) links tr log =
    format_links rest (links ++ map action_link_obj pre)%list tr log.
Proof.
  induction pre as [|[k v] pre IH]; intros Hv links tr log; simpl in *.
  - now rewrite app_nil_r.
  - apply andb_prop in Hv as [Hv Hrest].
    rewrite link_check_valid_link, Hv. simpl.
    rewrite IH by exact Hrest. now rewrite <- app_assoc.
Qed.

Lemma forallb_valid_false (items : list (string * string)) :
  forallb valid_link (map snd items) = false ->
  exists k v, In (k, v) items /\ valid_link v = false.
Proof.
  induction items as [|[k v] items IH]; simpl; [discriminate|].
  destruct (valid_link v) eqn:Hv; simpl.
  - intros H. destruct (IH H) as (k' & v' & Hin & Hbad). eauto.
  - intros _. eauto.
Qed.

(** A link error of the loop is the error of [broadcast_notification], with
    nothing sent. *)
Lemma broadcast_notification_run_links_error (base_url : string) (tr : transport)
    (source : string) (var : variant) (subject message : string)
    (items : list (string * string)) (pub exp : option datetime) (e : pyexc) :
  format_links items [] tr [] = (inl e, []) ->
  run (broadcast_notification base_url source var subject message (Some items) pub exp) tr =
  (inl e, []).
Proof.
  intros H. destruct items as [|kv l] eqn:E; [discriminate H|].
  unfold run, broadcast_notification, bind.
  change (truthy (Some (kv :: l))) with true. cbv beta iota.
  rewrite H. reflexivity.
Qed.

(** ** Claims *)

(** C1: with [user_ids=[]], [group_ids=[]], [role_ids=[]],
    [send_notification] raises [ValueError("The message has no
    recipients.")] and no request is logged, whatever the transport. *)
Theorem send_notification_all_empty_raises (base_url : string) (tr : transport)
    (source : string) (var : variant) (subject message : string)
    (publication_time expiration_time : option datetime) :
  run (send_notification base_url source var subject message publication_time
         expiration_time (Some []) (Some []) (Some [])) tr =
  (inl (ValueError "The message has no recipients."), []).
Proof. reflexivity. Qed.

(** C2 (the code misses it): with the three recipient lists omitted
    ([None]), [send_notification] is not rejected: it issues one POST whose
    recipients are all empty. *)
Theorem send_notification_all_omitted_posts (base_url : string) (tr : transport)
    (source : string) (var : variant) (subject message : string)
    (publication_time expiration_time : option datetime) :
  exists body,
    run (send_notification base_url source var subject message publication_time
           expiration_time None None None) tr =
    (tr (Post base_url body), [Post base_url body]) /\
    dict_get "recipients" body =
    Some (PDict [("user_ids", PList []); ("group_ids", PList []); ("role_ids", PList [])]).
Proof.
  eexists. split.
  - apply send_notification_run_posts. intros (H & _). discriminate H.
  - reflexivity.
Qed.

(** C3: if some action link does not start with [http://] or [https://],
    [broadcast_notification] raises [ValueError] naming an offending link and
    logs no request. *)
Theorem broadcast_notification_invalid_link_raises (base_url : string) (tr : transport)
    (source : string) (var : variant) (subject message : string)
    (action_links : list (string * string))
    (publication_time expiration_time : option datetime) :
  (exists k v, In (k, v) action_links /\ valid_link v = false) ->
  exists v, In v (map snd action_links) /\ valid_link v = false /\
    run (broadcast_notification base_url source var subject message
           (Some action_links) publication_time expiration_time) tr =
    (inl (ValueError ("Link " ++ v ++ " is not a valid URL.")), []).
Proof.
  intros Hex.
  destruct action_links as [|kv l] eqn:E.
  - destruct Hex as (? & ? & [] & _).
  - rewrite <- E in Hex |- *.
    destruct (format_links_invalid action_links Hex [] tr []) as (v & Hin & Hv & Hrun).
    exists v. split; [exact Hin | split; [exact Hv |]].
    unfold run, broadcast_notification, bind. rewrite E.
    change (truthy (Some (kv :: l))) with true. cbv beta iota.
    rewrite <- E, Hrun. reflexivity.
Qed.

Lemma broadcast_notification_invalid_link_raises_witness :
  (exists k v, In (k, v) [("x", "ftp://bad")] /\ valid_link v = false) /\
  exists v, In v (map snd [("x", "ftp://bad")]) /\ valid_link v = false /\
    run (broadcast_notification "https://galaxy/api/notifications" "admin" info
           "subject" "message" (Some [("x", "ftp://bad")]) None None) null_transport =
    (inl (ValueError ("Link " ++ v ++ " is not a valid URL.")), []).
Proof.
  assert (H : exists k v, In (k, v) [("x", "ftp://bad")] /\ valid_link v = false)
    by (exists "x", "ftp://bad"; split; [left; reflexivity | reflexivity]).
  split; [exact H|].
  apply (broadcast_notification_invalid_link_raises "https://galaxy/api/notifications"
           null_transport "admin" info "subject" "message" [("x", "ftp://bad")] None None H).
Defined.

(** C4: with a non-empty [action_links] whose links all start with
    [http://] or [https://], [broadcast_notification] issues one POST whose
    [content.action_links] lists [{action_name: key, link: value}] in the
    insertion order of [action_links]. *)
Theorem broadcast_notification_action_links_in_order (base_url : string) (tr : transport)
    (source : string) (var : variant) (subject message : string)
    (action_links : list (string * string))
    (publication_time expiration_time : option datetime) :
  action_links <> [] ->
  forallb valid_link (map snd action_links) = true ->
  exists body content,
    run (broadcast_notification base_url source var subject message
           (Some action_links) publication_time expiration_time) tr =
    (tr (Post (base_url ++ "/broadcast") body), [Post (base_url ++ "/broadcast") body]) /\
    dict_get "content" body = Some (PDict content) /\
    dict_get "action_links" content = Some (PList (map action_link_obj action_links)).
Proof.
  intros Hne Hv.
  rewrite broadcast_notification_run_valid by exact Hv.
  destruct action_links as [|kv l]; [congruence|].
  eexists _, _. split; [reflexivity|]. split.
  - destruct expiration_time, publication_time; reflexivity.
  - reflexivity.
Qed.

Lemma broadcast_notification_action_links_in_order_witness :
  [("link_1", "https://a"); ("link_2", "http://b")] <> [] /\
  forallb valid_link (map snd [("link_1", "https://a"); ("link_2", "http://b")]) = true /\
  exists body content,
    run (broadcast_notification "https://galaxy/api/notifications" "admin" info
           "subject" "message" (Some [("link_1", "https://a"); ("link_2", "http://b")])
           None None) null_transport =
    (null_transport (Post ("https://galaxy/api/notifications" ++ "/broadcast") body),
     [Post ("https://galaxy/api/notifications" ++ "/broadcast") body]) /\
    dict_get "content" body = Some (PDict content) /\
    dict_get "action_links" content =
    Some (PList [PDict [("action_name", PStr "link_1"); ("link", PStr "https://a")];
                 PDict [("action_name", PStr "link_2"); ("link", PStr "http://b")]]).
Proof.
  split; [discriminate|]. split; [reflexivity|].
  apply (broadcast_notification_action_links_in_order "https://galaxy/api/notifications"
           null_transport "admin" info "subject" "message"
           [("link_1", "https://a"); ("link_2", "http://b")] None None);
    [discriminate | reflexivity].
Defined.

(** C5: when at least one recipient list is a non-empty list,
    [send_notification] issues exactly one POST whose [recipients] holds the
    three lists as supplied, in order, an omitted one as [[]]. *)
Theorem send_notification_recipients_mirror (base_url : string) (tr : transport)
    (source : string) (var : variant) (subject message : string)
    (publication_time expiration_time : option datetime)
    (user_ids group_ids role_ids : option (list string)) :
  (exists l, l <> [] /\ (user_ids = Some l \/ group_ids = Some l \/ role_ids = Some l)) ->
  exists body,
    run (send_notification base_url source var subject message publication_time
           expiration_time user_ids group_ids role_ids) tr =
    (tr (Post base_url body), [Post base_url body]) /\
    dict_get "recipients" body =
    Some (PDict [("user_ids", PList (map PStr (supplied_or_empty user_ids)));
                 ("group_ids", PList (map PStr (supplied_or_empty group_ids)));
                 ("role_ids", PList (map PStr (supplied_or_empty role_ids)))]).
Proof.
  intros (l & Hl & Hsome).
  eexists. split.
  - apply send_notification_run_posts.
    intros (Hu & Hg & Hr). subst.
    destruct Hsome as [H | [H | H]]; inversion H; subst; congruence.
  - reflexivity.
Qed.

Lemma send_notification_recipients_mirror_witness :
  (exists l : list string, l <> [] /\
     (Some ["u2"; "u1"] = Some l \/ @None (list string) = Some l \/ Some [] = Some l)) /\
  exists body,
    run (send_notification "https://galaxy/api/notifications" "admin" urgent
           "subject" "message" None None (Some ["u2"; "u1"]) None (Some [])) null_transport =
    (null_transport (Post "https://galaxy/api/notifications" body),
     [Post "https://galaxy/api/notifications" body]) /\
    dict_get "recipients" body =
    Some (PDict [("user_ids", PList [PStr "u2"; PStr "u1"]);
                 ("group_ids", PList []); ("role_ids", PList [])]).
Proof.
  assert (H : exists l : list string, l <> [] /\
     (Some ["u2"; "u1"] = Some l \/ @None (list string) = Some l \/ Some [] = Some l))
    by (exists ["u2"; "u1"]; split; [discriminate | left; reflexivity]).
  split; [exact H|].
  apply (send_notification_recipients_mirror "https://galaxy/api/notifications"
           null_transport "admin" urgent "subject" "message" None None
           (Some ["u2"; "u1"]) None (Some []) H).
Defined.

(** C6: [update_notification_preferences] issues exactly one PUT to
    [<base>/preferences] with the nested preferences body, the message and
    new-shared-item categories filled from the four flags, and returns the
    transport's answer unchanged. *)
Theorem update_notification_preferences_payload (base_url : string) (tr : transport)
    (message_notifications push_notifications_message
     new_item_notifications push_notifications_new_items : bool) :
  let body :=
    [("preferences", PDict
        [("message", PDict [("enabled", PBool message_notifications);
                            ("channels", PDict [("push", PBool push_notifications_message)])]);
         ("new_shared_item", PDict [("enabled", PBool new_item_notifications);
                                    ("channels", PDict [("push", PBool push_notifications_new_items)])])])] in
  run (update_notification_preferences base_url message_notifications
         push_notifications_message new_item_notifications push_notifications_new_items) tr =
  (tr (Put (base_url ++ "/preferences") body), [Put (base_url ++ "/preferences") body]).
Proof. reflexivity. Qed.

(** C7: [get_user_notifications] issues exactly one GET to the base URL with
    the parameters [limit] (20 when omitted) and [offset] ([None] when
    omitted, a key the HTTP layer leaves out of the query string), and
    returns the transport's answer unchanged. *)
Theorem get_user_notifications_passthrough (base_url : string) (tr : transport)
    (limit offset : arg (option Z)) :
  let params :=
    [("limit", match limit with Omitted => PInt 20 | Passed l => py_opt_int l end);
     ("offset", match offset with
                | Omitted | Passed None => PNone
                | Passed (Some o) => PInt o end)] in
  run (get_user_notifications base_url limit offset) tr =
  (tr (Get base_url params), [Get base_url params]).
Proof.
  destruct limit as [|l], offset as [|[o|]]; reflexivity.
Qed.

(** C8: a [broadcast_notification] whose links validate issues one POST of
    [{source, variant, category: "broadcast", content}] followed by
    [expiration_time] and [publication_time] exactly when supplied, each as
    [str(t)]; a [send_notification] that is not rejected adds the two fields
    to its [notification] object in the same way. *)
Theorem timestamps_present_iff_supplied (base_url : string) (tr : transport)
    (source : string) (var : variant) (subject message : string)
    (publication_time expiration_time : option datetime)
    (action_links : option (list (string * string)))
    (user_ids group_ids role_ids : option (list string)) :
  forallb valid_link (map snd (supplied_or_empty action_links)) = true ->
  ~ (user_ids = Some [] /\ group_ids = Some [] /\ role_ids = Some []) ->
  (exists content,
     let body :=
       ([("source", PStr source); ("variant", PStr (variant_str var));
         ("category", PStr "broadcast"); ("content", PDict content)]
        ++ time_field "expiration_time" expiration_time
        ++ time_field "publication_time" publication_time)%list in
     run (broadcast_notification base_url source var subject message action_links
            publication_time expiration_time) tr =
     (tr (Post (base_url ++ "/broadcast") body), [Post (base_url ++ "/broadcast") body])) /\
  (exists recipients,
     let notification :=
       ([("source", PStr source); ("variant", PStr (variant_str var));
         ("category", PStr "message");
         ("content", PDict [("category", PStr "message"); ("subject", PStr subject);
                            ("message", PStr message)])]
        ++ time_field "expiration_time" expiration_time
        ++ time_field "publication_time" publication_time)%list in
     let body := [("recipients", PDict recipients); ("notification", PDict notification)] in
     run (send_notification base_url source var subject message publication_time
            expiration_time user_ids group_ids role_ids) tr =
     (tr (Post base_url body), [Post base_url body])).
Proof.
  intros Hv Hr. split.
  - eexists. cbv zeta.
    rewrite broadcast_notification_run_valid by exact Hv. cbv zeta. reflexivity.
  - eexists. cbv zeta.
    rewrite send_notification_run_posts by exact Hr. cbv zeta. reflexivity.
Qed.

Lemma timestamps_present_iff_supplied_witness :
  forallb valid_link (map snd (supplied_or_empty (Some [("docs", "https://a")]))) = true /\
  ~ (Some ["u1"] = Some [] /\ @None (list string) = Some [] /\ @None (list string) = Some []) /\
  (exists content,
     let body :=
       ([("source", PStr "admin"); ("variant", PStr "warning");
         ("category", PStr "broadcast"); ("content", PDict content)]
        ++ time_field "expiration_time" (Some sample_time)
        ++ time_field "publication_time" None)%list in
     run (broadcast_notification "B" "admin" warning "s" "m" (Some [("docs", "https://a")])
            None (Some sample_time)) null_transport =
     (null_transport (Post ("B" ++ "/broadcast") body), [Post ("B" ++ "/broadcast") body])) /\
  (exists recipients,
     let notification :=
       ([("source", PStr "admin"); ("variant", PStr "warning");
         ("category", PStr "message");
         ("content", PDict [("category", PStr "message"); ("subject", PStr "s");
                            ("message", PStr "m")])]
        ++ time_field "expiration_time" (Some sample_time)
        ++ time_field "publication_time" None)%list in
     let body := [("recipients", PDict recipients); ("notification", PDict notification)] in
     run (send_notification "B" "admin" warning "s" "m" None (Some sample_time)
            (Some ["u1"]) None None) null_transport =
     (null_transport (Post "B" body), [Post "B" body])).
Proof.
  assert (Hv : forallb valid_link (map snd (supplied_or_empty (Some [("docs", "https://a")])))
               = true) by reflexivity.
  assert (Hr : ~ (Some ["u1"] = Some [] /\ @None (list string) = Some [] /\
                  @None (list string) = Some []))
    by (intros (H & _); discriminate H).
  split; [exact Hv|]. split; [exact Hr|].
  exact (timestamps_present_iff_supplied "B" null_transport "admin" warning "s" "m"
           None (Some sample_time) (Some [("docs", "https://a")]) (Some ["u1"]) None None
           Hv Hr).
Defined.

(** C9: [action_links={}] behaves as an omitted [action_links]: no
    validation, one POST, and no [action_links] key in [content]. *)
Theorem broadcast_notification_empty_links_as_omitted (base_url : string) (tr : transport)
    (source : string) (var : variant) (subject message : string)
    (publication_time expiration_time : option datetime) :
  run (broadcast_notification base_url source var subject message (Some [])
         publication_time expiration_time) tr =
  run (broadcast_notification base_url source var subject message None
         publication_time expiration_time) tr /\
  exists body content,
    run (broadcast_notification base_url source var subject message None
           publication_time expiration_time) tr =
    (tr (Post (base_url ++ "/broadcast") body), [Post (base_url ++ "/broadcast") body]) /\
    dict_get "content" body = Some (PDict content) /\
    dict_get "action_links" content = None.
Proof.
  split.
  - reflexivity.
  - rewrite broadcast_notification_run_valid by reflexivity.
    eexists _, _. split; [reflexivity|]. split.
    + destruct expiration_time, publication_time; reflexivity.
    + reflexivity.
Qed.

(** C10: [send_notification] raises exactly when the three recipient lists
    are all the explicit empty list; otherwise (also when all three are
    omitted) it issues one POST whose recipients are the supplied lists,
    [[]] for omitted ones. *)
Theorem send_notification_raises_iff_explicit_empty (base_url : string) (tr : transport)
    (source : string) (var : variant) (subject message : string)
    (publication_time expiration_time : option datetime)
    (user_ids group_ids role_ids : option (list string)) :
  (run (send_notification base_url source var subject message publication_time
          expiration_time user_ids group_ids role_ids) tr =
   (inl (ValueError "The message has no recipients."), [])
   <-> user_ids = Some [] /\ group_ids = Some [] /\ role_ids = Some []) /\
  ((user_ids = Some [] /\ group_ids = Some [] /\ role_ids = Some []) \/
   exists body,
     run (send_notification base_url source var subject message publication_time
            expiration_time user_ids group_ids role_ids) tr =
     (tr (Post base_url body), [Post base_url body]) /\
     dict_get "recipients" body =
     Some (PDict [("user_ids", PList (map PStr (supplied_or_empty user_ids)));
                  ("group_ids", PList (map PStr (supplied_or_empty group_ids)));
                  ("role_ids", PList (map PStr (supplied_or_empty role_ids)))])).
Proof.
  destruct (opt_list_eqb user_ids group_ids && opt_list_eqb group_ids role_ids
            && opt_list_eqb role_ids (Some [])) eqn:G.
  - apply no_recipients_guard in G as G'. destruct G' as (-> & -> & ->).
    split; [split; [intros _; repeat split | intros _; reflexivity] | left; repeat split].
  - assert (Hne : ~ (user_ids = Some [] /\ group_ids = Some [] /\ role_ids = Some [])).
    { intros H. apply no_recipients_guard in H. congruence. }
    rewrite send_notification_run_posts by exact Hne. cbv zeta.
    split.
    + split; [intros H; inversion H | intros H; contradiction].
    + right. eexists. split; reflexivity.
Qed.

(** ** Further properties of the code *)

(** X1: the loop stops at the first link (in insertion order) that does not
    start with [http://] or [https://]: the error names that link, whatever
    follows, and nothing is sent. *)
Theorem broadcast_notification_first_invalid_link (base_url : string) (tr : transport)
    (source : string) (var : variant) (subject message : string)
    (pre post : list (string * string)) (k v : string)
    (publication_time expiration_time : option datetime) :
  forallb valid_link (map snd pre) = true ->
  valid_link v = false ->
  run (broadcast_notification base_url source var subject message
         (Some (pre ++ (k, v) :: post)%list) publication_time expiration_time) tr =
  (inl (ValueError ("Link " ++ v ++ " is not a valid URL.")), []).
Proof.
  intros Hpre Hv. apply broadcast_notification_run_links_error.
  rewrite format_links_app_valid by exact Hpre. simpl.
  rewrite link_check_valid_link, Hv. reflexivity.
Qed.

Lemma broadcast_notification_first_invalid_link_witness :
  forallb valid_link (map snd [("docs", "https://a")]) = true /\
  valid_link "ftp://b" = false /\
  run (broadcast_notification "B" "admin" info "s" "m"
         (Some ([("docs", "https://a")] ++ ("mirror", "ftp://b") :: [("x", "gopher://c")])%list)
         None None) null_transport =
  (inl (ValueError ("Link " ++ "ftp://b" ++ " is not a valid URL.")), []).
Proof.
  split; [reflexivity|]. split; [reflexivity|].
  apply (broadcast_notification_first_invalid_link "B" null_transport "admin" info "s" "m"
           [("docs", "https://a")] [("x", "gopher://c")] "mirror" "ftp://b" None None);
    reflexivity.
Defined.

(** X2: [broadcast_notification] either raises a [ValueError] having sent
    nothing, or sends exactly one POST to [<base>/broadcast] and returns the
    transport's answer to it. *)
Theorem broadcast_notification_one_post_or_none (base_url : string) (tr : transport)
    (source : string) (var : variant) (subject message : string)
    (action_links : option (list (string * string)))
    (publication_time expiration_time : option datetime) :
  (exists msg,
     run (broadcast_notification base_url source var subject message action_links
            publication_time expiration_time) tr = (inl (ValueError msg), [])) \/
  (exists body,
     run (broadcast_notification base_url source var subject message action_links
            publication_time expiration_time) tr =
     (tr (Post (base_url ++ "/broadcast") body), [Post (base_url ++ "/broadcast") body])).
Proof.
  destruct (forallb valid_link (map snd (supplied_or_empty action_links))) eqn:Hv.
  - right. eexists. rewrite broadcast_notification_run_valid by exact Hv. reflexivity.
  - left. destruct action_links as [items|]; [|discriminate Hv].
    simpl in Hv.
    destruct (format_links_outcome items [] tr []) as [(msg & Hmsg) | (ls & Hls)].
    + exists msg. now apply broadcast_notification_run_links_error.
    + exfalso.
      destruct (format_links_invalid items (forallb_valid_false items Hv) [] tr [])
        as (v & _ & _ & Hrun).
      congruence.
Qed.

(** X3: every POST of [broadcast_notification] carries [category:
    "broadcast"] both at the top level and inside [content], with the
    caller's [subject] and [message] verbatim in [content]; every POST of
    [send_notification] does the same with [category: "message"] inside its
    [notification] object. *)
Theorem posted_category_and_content (base_url : string) (tr : transport)
    (source : string) (var : variant) (subject message : string)
    (publication_time expiration_time : option datetime)
    (action_links : option (list (string * string)))
    (user_ids group_ids role_ids : option (list string)) :
  forallb valid_link (map snd (supplied_or_empty action_links)) = true ->
  ~ (user_ids = Some [] /\ group_ids = Some [] /\ role_ids = Some []) ->
  (exists body content,
     run (broadcast_notification base_url source var subject message action_links
            publication_time expiration_time) tr =
     (tr (Post (base_url ++ "/broadcast") body), [Post (base_url ++ "/broadcast") body]) /\
     dict_get "category" body = Some (PStr "broadcast") /\
     dict_get "content" body = Some (PDict content) /\
     dict_get "category" content = Some (PStr "broadcast") /\
     dict_get "subject" content = Some (PStr subject) /\
     dict_get "message" content = Some (PStr message)) /\
  (exists body notification content,
     run (send_notification base_url source var subject message publication_time
            expiration_time user_ids group_ids role_ids) tr =
     (tr (Post base_url body), [Post base_url body]) /\
     dict_get "notification" body = Some (PDict notification) /\
     dict_get "category" notification = Some (PStr "message") /\
     dict_get "content" notification = Some (PDict content) /\
     dict_get "category" content = Some (PStr "message") /\
     dict_get "subject" content = Some (PStr subject) /\
     dict_get "message" content = Some (PStr message)).
Proof.
  intros Hv Hr. split.
  - rewrite broadcast_notification_run_valid by exact Hv. cbv zeta.
    eexists _, _. split; [reflexivity|].
    destruct expiration_time, publication_time;
      repeat split; reflexivity.
  - rewrite send_notification_run_posts by exact Hr. cbv zeta.
    eexists _, _, _. split; [reflexivity|].
    destruct expiration_time, publication_time;
      repeat split; reflexivity.
Qed.

Lemma posted_category_and_content_witness :
  forallb valid_link (map snd (supplied_or_empty (@None (list (string * string))))) = true /\
  ~ (@None (list string) = Some [] /\ Some ["g1"] = Some [] /\ @None (list string) = Some []) /\
  (exists body content,
     run (broadcast_notification "B" "admin" urgent "s" "m" None None None) null_transport =
     (null_transport (Post ("B" ++ "/broadcast") body), [Post ("B" ++ "/broadcast") body]) /\
     dict_get "category" body = Some (PStr "broadcast") /\
     dict_get "content" body = Some (PDict content) /\
     dict_get "category" content = Some (PStr "broadcast") /\
     dict_get "subject" content = Some (PStr "s") /\
     dict_get "message" content = Some (PStr "m")) /\
  (exists body notification content,
     run (send_notification "B" "admin" urgent "s" "m" None None None (Some ["g1"]) None)
       null_transport =
     (null_transport (Post "B" body), [Post "B" body]) /\
     dict_get "notification" body = Some (PDict notification) /\
     dict_get "category" notification = Some (PStr "message") /\
     dict_get "content" notification = Some (PDict content) /\
     dict_get "category" content = Some (PStr "message") /\
     dict_get "subject" content = Some (PStr "s") /\
     dict_get "message" content = Some (PStr "m")).
Proof.
  assert (Hv : forallb valid_link (map snd (supplied_or_empty (@None (list (string * string)))))
               = true) by reflexivity.
  assert (Hr : ~ (@None (list string) = Some [] /\ Some ["g1"] = Some [] /\
                  @None (list string) = Some []))
    by (intros (H & _); discriminate H).
  split; [exact Hv|]. split; [exact Hr|].
  exact (posted_category_and_content "B" null_transport "admin" urgent "s" "m" None None
           None None (Some ["g1"]) None Hv Hr).
Defined.

Lemma py_or_str_default (o : option string) (default : string) :
  py_or_str o default =
  match o with Some s => if String.eqb s "" then default else s | None => default end.
Proof. destruct o as [[|c s]|]; reflexivity. Qed.

(** X4: the test helper [_send_test_notification_to] is never rejected, even
    for an empty [user_ids] list: it sends one POST whose recipients are
    [user_ids] with empty group and role lists, whose notification carries
    [expiration_time = str(utc_tomorrow)] and no [publication_time]. *)
Theorem send_test_notification_to_posts (base_url : string) (tr : transport)
    (utc_tomorrow : datetime) (user_ids : list string) (subject message : option string) :
  exists body notification,
    run (_send_test_notification_to base_url utc_tomorrow user_ids subject message) tr =
    (tr (Post base_url body), [Post base_url body]) /\
    dict_get "recipients" body =
    Some (PDict [("user_ids", PList (map PStr user_ids));
                 ("group_ids", PList []); ("role_ids", PList [])]) /\
    dict_get "notification" body = Some (PDict notification) /\
    dict_get "expiration_time" notification = Some (PStr (str_datetime utc_tomorrow)) /\
    dict_get "publication_time" notification = None.
Proof.
  unfold _send_test_notification_to.
  rewrite send_notification_run_posts by (intros (_ & H & _); discriminate H).
  cbv zeta. eexists _, _. split; [reflexivity|].
  repeat split; reflexivity.
Qed.

(** X5: the test helper [_send_test_broadcast_notification] is never
    rejected: it sends one POST to [<base>/broadcast] whose content lists
    [link_1] and [link_2] in that order, with [expiration_time =
    str(utc_tomorrow)] and no [publication_time]. *)
Theorem send_test_broadcast_notification_posts (base_url : string) (tr : transport)
    (utc_tomorrow : datetime) (subject message : option string) :
  exists body content,
    run (_send_test_broadcast_notification base_url utc_tomorrow subject message) tr =
    (tr (Post (base_url ++ "/broadcast") body), [Post (base_url ++ "/broadcast") body]) /\
    dict_get "content" body = Some (PDict content) /\
    dict_get "action_links" content =
    Some (PList [PDict [("action_name", PStr "link_1"); ("link", PStr "https://link1.de")];
                 PDict [("action_name", PStr "link_2"); ("link", PStr "https://link2.de")]]) /\
    dict_get "expiration_time" body = Some (PStr (str_datetime utc_tomorrow)) /\
    dict_get "publication_time" body = None.
Proof.
  unfold _send_test_broadcast_notification.
  rewrite broadcast_notification_run_valid by reflexivity.
  cbv zeta. eexists _, _. split; [reflexivity|].
  repeat split; reflexivity.
Qed.

(** X6: in both test helpers an omitted or empty [subject] becomes
    ["Testing Subject"] and an omitted or empty [message] becomes
    ["Testing Message"] ([x or default]); any other value is sent as is. *)
Theorem test_helpers_subject_message_defaults (base_url : string) (tr : transport)
    (utc_tomorrow : datetime) (user_ids : list string) (subject message : option string) :
  let subject' :=
    match subject with
    | Some s => if String.eqb s "" then "Testing Subject" else s
    | None => "Testing Subject" end in
  let message' :=
    match message with
    | Some s => if String.eqb s "" then "Testing Message" else s
    | None => "Testing Message" end in
  (exists body content,
     run (_send_test_broadcast_notification base_url utc_tomorrow subject message) tr =
     (tr (Post (base_url ++ "/broadcast") body), [Post (base_url ++ "/broadcast") body]) /\
     dict_get "content" body = Some (PDict content) /\
     dict_get "subject" content = Some (PStr subject') /\
     dict_get "message" content = Some (PStr message')) /\
  (exists body notification content,
     run (_send_test_notification_to base_url utc_tomorrow user_ids subject message) tr =
     (tr (Post base_url body), [Post base_url body]) /\
     dict_get "notification" body = Some (PDict notification) /\
     dict_get "content" notification = Some (PDict content) /\
     dict_get "subject" content = Some (PStr subject') /\
     dict_get "message" content = Some (PStr message')).
Proof.
  cbv zeta. split.
  - unfold _send_test_broadcast_notification.
    rewrite broadcast_notification_run_valid by reflexivity.
    rewrite !py_or_str_default. cbv zeta.
    eexists _, _. split; [reflexivity|]. repeat split; reflexivity.
  - unfold _send_test_notification_to.
    rewrite send_notification_run_posts by (intros (_ & H & _); discriminate H).
    rewrite !py_or_str_default. cbv zeta.
    eexists _, _, _. split; [reflexivity|]. repeat split; reflexivity.
Qed.
